(** * Figure-generation scripts of research_paper/scripts

    Shallow embedding of the six matplotlib scripts
    (generate_block_diagram.py, generate_charts.py, generate_enclosure.py,
    generate_flowcharts.py, generate_pcb.py, generate_schematic.py).

    A script is a straight-line Python body of plotting-library calls.  It is
    embedded in a reader/state/error monad:
    - the reader part is the [world]: numpy's global random stream, the
      plotting library's success/failure behaviour, the command line, the
      process environment and the file system;
    - the state part is the position in the random stream, matplotlib's
      figure counter and current figure, and the log of library calls issued;
    - the error part is a library exception, which Python propagates through
      every enclosing call unless a [try] catches it.

    Numbers are rationals ([Q]); the claims below concern orderings of literal
    decimal constants, for which this is exact enough. *)

From Stdlib Require Import QArith Qabs String List Lia.
From Stdlib Require Import Qfield Lqa.
Import ListNotations.

Open Scope Q_scope.

Module Plot.

(** Placement calls.  [DCall name data] is one call of the plotting API
    ([ax.plot], [ax.bar], [ax.text], ...) with its numeric array arguments
    (styling keywords and label strings are not modelled).  [DBlock lo hi]
    stands for the literal placement calls of source lines [lo..hi] of a
    script, issued in order on the current figure. *)
Inductive draw_call : Type :=
| DCall (name : string) (data : list (list Q))
| DBlock (lo hi : nat).

(** Calls that leave the Python process (or change the library's figure
    registry).  [ERead] is the event a file read would produce. *)
Inductive event : Type :=
| EFigure (fig : nat)
| EDraw (fig : nat) (d : draw_call)
| ESave (fig : nat) (path : string) (dpi : option Z)
| EPrint (msg : string)
| ERead (path : string).

Inductive exc : Type :=
| LibraryError (msg : string).

Record world : Type := mkWorld {
  w_rng : nat -> Q;                                 (* standard-normal draws *)
  w_lib : list event -> event -> option string;     (* history -> call -> raised error *)
  w_argv : list string;
  w_environ : list (string * string);
  w_files : string -> option string
}.

Record st : Type := mkSt {
  s_rng : nat;              (* next position in the random stream *)
  s_nfig : nat;             (* number of figures created so far *)
  s_cur : nat;              (* current figure (plt.gcf) *)
  s_log : list event        (* calls issued, newest first *)
}.

Definition init_st : st := mkSt 0 0 0 [].

Definition M (A : Type) : Type := world -> st -> st * (exc + A).

Definition ret {A} (a : A) : M A := fun _ s => (s, inr a).

Definition bind {A B} (m : M A) (k : A -> M B) : M B :=
  fun w s =>
    match m w s with
    | (s', inl e) => (s', inl e)
    | (s', inr a) => k a w s'
    end.

Notation "x <- m ;; k" := (bind m (fun x => k))
  (at level 61, m at next level, right associativity).
Notation "m ;; k" := (bind m (fun _ => k))
  (at level 61, right associativity).

(** Issue one library call: it is logged, then the library either returns
    normally or raises. *)
Definition issue (ev : event) : M unit :=
  fun w s =>
    (mkSt (s_rng s) (s_nfig s) (s_cur s) (ev :: s_log s),
     match w_lib w (s_log s) ev with
     | Some msg => inl (LibraryError msg)
     | None => inr tt
     end).

(** [plt.subplots(...)] / [plt.figure(...)]: a new figure, made current. *)
Definition new_figure : M unit :=
  fun w s =>
    let f := S (s_nfig s) in
    issue (EFigure f) w (mkSt (s_rng s) f f (s_log s)).

(** A placement call on the current figure. *)
Definition draw (name : string) (data : list (list Q)) : M unit :=
  fun w s => issue (EDraw (s_cur s) (DCall name data)) w s.

Definition draw_block (lo hi : nat) : M unit :=
  fun w s => issue (EDraw (s_cur s) (DBlock lo hi)) w s.

(** [plt.savefig(path, dpi=...)]: saves the current figure. *)
Definition savefig (path : string) (dpi : option Z) : M unit :=
  fun w s => issue (ESave (s_cur s) path dpi) w s.

Definition print (msg : string) : M unit := issue (EPrint msg).

(** [np.random.normal(loc, scale, n)]: the next [n] draws of the global
    stream, scaled. *)
Definition normal (loc scale : Q) (n : nat) : M (list Q) :=
  fun w s =>
    (mkSt (s_rng s + n) (s_nfig s) (s_cur s) (s_log s),
     inr (map (fun i => loc + scale * w_rng w (s_rng s + i)) (seq 0 n))).

(** Operations the Python runtime offers but no script uses: reading the
    command line ([sys.argv]), the environment ([os.environ]), a file
    ([open(path).read()]), and a [try]/[except] handler. *)
Definition get_argv : M (list string) := fun w s => (s, inr (w_argv w)).

Definition getenv (k : string) : M (option string) :=
  fun w s =>
    (s, inr (match find (fun kv => String.eqb (fst kv) k) (w_environ w) with
             | Some kv => Some (snd kv)
             | None => None
             end)).

Definition read_file (path : string) : M (option string) :=
  fun w s => (mkSt (s_rng s) (s_nfig s) (s_cur s) (ERead path :: s_log s),
              inr (w_files w path)).

Definition try_except {A} (m : M A) (handler : exc -> M A) : M A :=
  fun w s =>
    match m w s with
    | (s', inl e) => handler e w s'
    | r => r
    end.

(** Running a script from a fresh interpreter. *)
Definition run (p : M unit) (w : world) : st * (exc + unit) := p w init_st.

(** The calls of a run, oldest first. *)
Definition events (r : st * (exc + unit)) : list event := rev (s_log (fst r)).

Definition images_dir : string := "/workspaces/ultraman/research_paper/images/".

End Plot.

Module Charts.
Import Plot.

(** numpy helpers used by generate_charts.py. *)
Definition arange (n : nat) : list Q :=
  map (fun i => inject_Z (Z.of_nat i)) (seq 0 n).

Definition vsub (a b : list Q) : list Q := map (fun p => fst p - snd p) (combine a b).
Definition vscale (c : Q) (a : list Q) : list Q := map (fun x => x * c) a.
Definition vshift (c : Q) (a : list Q) : list Q := map (fun x => x + c) a.
Definition vabs (a : list Q) : list Q := map Qabs a.

(** [np.clip(a, lo, hi)] = [np.minimum(np.maximum(a, lo), hi)], elementwise. *)
Definition clip1 (lo hi x : Q) : Q :=
  let y := if Qle_bool lo x then x else lo in
  if Qle_bool y hi then y else hi.
Definition clip (a : list Q) (lo hi : Q) : list Q := map (clip1 lo hi) a.

(** [np.linspace(0, 2*np.pi, n, endpoint=False)], with angles measured in
    full turns (units of 2*pi). *)
Definition linspace_turns (n : nat) : list Q :=
  map (fun i => inject_Z (Z.of_nat i) / inject_Z (Z.of_nat n)) (seq 0 n).

(** [for x in l: body(x)] followed by the statements [rest] of the block. *)
Fixpoint for_each_then {A B} (l : list A) (body : A -> M unit) (rest : M B) : M B :=
  match l with
  | [] => rest
  | x :: t => body x ;; for_each_then t body rest
  end.

(** ** create_accuracy_chart (lines 10-105) *)
Definition actual_distances : list Q :=
  [0.5; 1.0; 1.5; 2.0; 2.5; 3.0; 3.5; 4.0; 4.5; 5.0].
(** line 22: the hard-coded array that replaces the perturbed one of line 21 *)
Definition measured_distances : list Q :=
  [0.502; 0.998; 1.506; 2.003; 2.495; 3.008; 3.502; 3.997; 4.509; 5.004].
(** line 41: [errors = (measured_distances - actual_distances) * 100] *)
Definition errors : list Q := vscale 100 (vsub measured_distances actual_distances).

Definition temperatures : list Q := [20; 25; 30; 35; 40; 45].
Definition error_without_comp : list Q := [0.8; 0.4; 0.1; -0.3; -0.7; -1.2].
Definition error_with_comp : list Q := [0.1; 0.05; 0.02; -0.03; -0.08; -0.15].
Definition num_samples : list Q := [1; 3; 5; 10; 15; 20].
Definition std_deviation : list Q := [1.5; 0.9; 0.6; 0.35; 0.25; 0.2].

Definition accuracy_png : string :=
  "/workspaces/ultraman/research_paper/images/accuracy_results.png".
Definition accuracy_pdf : string :=
  "/workspaces/ultraman/research_paper/images/accuracy_results.pdf".

Definition create_accuracy_chart : M unit :=
  new_figure ;;
  (* Distance Accuracy Test *)
  _ <- normal 0 0.005 (length actual_distances) ;;
  let measured := measured_distances in
  draw "plot" [actual_distances; actual_distances] ;;
  draw "scatter" [actual_distances; measured] ;;
  draw "plot" [actual_distances; measured] ;;
  draw "set_xlabel" [] ;; draw "set_ylabel" [] ;; draw "set_title" [] ;;
  draw "legend" [] ;; draw "grid" [] ;;
  draw "set_xlim" [[0; 5.5]] ;; draw "set_ylim" [[0; 5.5]] ;;
  (* Error Distribution *)
  let errs := vscale 100 (vsub measured actual_distances) in
  draw "bar" [arange (length actual_distances); errs] ;;
  draw "axhline" [[0]] ;; draw "axhline" [[1]] ;; draw "axhline" [[-1]] ;;
  draw "set_xlabel" [] ;; draw "set_ylabel" [] ;; draw "set_title" [] ;;
  draw "set_xticks" [arange (length actual_distances)] ;;
  draw "set_xticklabels" [actual_distances] ;;
  draw "legend" [] ;; draw "grid" [] ;; draw "set_ylim" [[-2; 2]] ;;
  (* Temperature Compensation Effect *)
  let x := arange (length temperatures) in
  let width := 0.35 in
  draw "bar" [vshift (- (width / 2)) x; vabs error_without_comp; [width]] ;;
  draw "bar" [vshift (width / 2) x; vabs error_with_comp; [width]] ;;
  draw "set_xlabel" [] ;; draw "set_ylabel" [] ;; draw "set_title" [] ;;
  draw "set_xticks" [x] ;; draw "set_xticklabels" [temperatures] ;;
  draw "legend" [] ;; draw "grid" [] ;;
  (* Multi-shot Averaging Effect *)
  draw "plot" [num_samples; std_deviation] ;;
  draw "fill_between" [num_samples; std_deviation] ;;
  draw "axhline" [[0.5]] ;;
  draw "set_xlabel" [] ;; draw "set_ylabel" [] ;; draw "set_title" [] ;;
  draw "legend" [] ;; draw "grid" [] ;;
  draw "set_xlim" [[0; 22]] ;; draw "set_ylim" [[0; 2]] ;;
  draw "tight_layout" [] ;;
  savefig accuracy_png (Some 300%Z) ;;
  savefig accuracy_pdf None ;;
  print "Accuracy results chart saved!".

(** ** create_environmental_tests (lines 107-203) *)
Definition accuracy : list Q := [99.5; 98.8; 97.2; 94.5; 89.0].
Definition success_rate : list Q := [99.8; 99.2; 97.5; 93.0; 88.5].
Definition actual_level : Q := 1.5.
(** lines 158-159: the plotted levels for a given noise vector *)
Definition measured_levels_of (noise : list Q) : list Q :=
  clip (map (fun z => actual_level + z) noise) (actual_level - 0.02) (actual_level + 0.02).
Definition sampling_interval : list Q := [10; 30; 60; 120; 300; 600].
Definition power_consumption : list Q := [45; 28; 18; 12; 8; 5].
Definition battery_life : list Q := [48; 78; 120; 180; 270; 430].

Definition environmental_png : string :=
  "/workspaces/ultraman/research_paper/images/environmental_results.png".
Definition environmental_pdf : string :=
  "/workspaces/ultraman/research_paper/images/environmental_results.pdf".

Definition create_environmental_tests : M unit :=
  new_figure ;;
  (* Rain Condition Performance; categorical bars sit at x = 0..4, width 0.8 *)
  draw "bar" [arange 5; accuracy] ;;
  draw "axhline" [[90]] ;;
  draw "set_ylabel" [] ;; draw "set_title" [] ;; draw "set_ylim" [[0; 105]] ;;
  draw "legend" [] ;; draw "grid" [] ;;
  for_each_then (combine (arange 5) accuracy)
    (fun ba => draw "text" [[fst ba - 0.4 + 0.8 / 2; snd ba + 1]]) (
  (* Water Surface Type Performance *)
  draw "barh" [arange 5; success_rate] ;;
  draw "axvline" [[90]] ;;
  draw "set_xlabel" [] ;; draw "set_title" [] ;; draw "set_xlim" [[0; 105]] ;;
  draw "legend" [] ;; draw "grid" [] ;;
  (* Long-term Stability Test (24-hour) *)
  let hours := arange 25 in
  noise <- normal 0 0.008 (length hours) ;;
  let measured_levels := measured_levels_of noise in
  draw "plot" [hours; measured_levels] ;;
  draw "axhline" [[actual_level]] ;;
  draw "fill_between" [hours; [actual_level - 0.01]; [actual_level + 0.01]] ;;
  draw "set_xlabel" [] ;; draw "set_ylabel" [] ;; draw "set_title" [] ;;
  draw "legend" [] ;; draw "grid" [] ;;
  draw "set_xlim" [[0; 24]] ;; draw "set_ylim" [[1.45; 1.55]] ;;
  (* Power Consumption vs Sampling Rate *)
  draw "twinx" [] ;;
  draw "plot" [sampling_interval; power_consumption] ;;
  draw "plot" [sampling_interval; battery_life] ;;
  draw "set_xlabel" [] ;; draw "set_ylabel" [] ;; draw "set_ylabel" [] ;;
  draw "set_title" [] ;; draw "tick_params" [] ;; draw "tick_params" [] ;;
  draw "legend" [] ;; draw "grid" [] ;;
  draw "tight_layout" [] ;;
  savefig environmental_png (Some 300%Z) ;;
  savefig environmental_pdf None ;;
  print "Environmental test results saved!").

(** ** create_comparison_chart (lines 205-276) *)
Definition N : nat := 6.    (* len(categories) *)
Definition custom_sensor : list Q := [9; 8; 9; 8; 9; 10].
Definition maxbotix : list Q := [9; 8; 4; 7; 9; 3].
Definition generic : list Q := [6; 7; 10; 6; 5; 8].
Definition angles : list Q := linspace_turns N.
(** [xs += xs[:1]] ("Complete the loop") *)
Definition complete_loop (xs : list Q) : list Q := xs ++ firstn 1 xs.
Definition costs : list Q := [850; 4500; 12000; 180; 350].

Definition comparison_png : string :=
  "/workspaces/ultraman/research_paper/images/comparison_chart.png".
Definition comparison_pdf : string :=
  "/workspaces/ultraman/research_paper/images/comparison_chart.pdf".

Definition create_comparison_chart : M unit :=
  new_figure ;;
  (* Feature Comparison Radar Chart *)
  let custom_sensor := complete_loop custom_sensor in
  let maxbotix := complete_loop maxbotix in
  let generic := complete_loop generic in
  let angles := complete_loop angles in
  draw "subplot" [] ;;                        (* plt.subplot(121, polar=True) *)
  draw "set_theta_offset" [[1 # 4]] ;;        (* np.pi / 2 *)
  draw "set_theta_direction" [[-1]] ;;
  draw "plot" [angles; custom_sensor] ;; draw "fill" [angles; custom_sensor] ;;
  draw "plot" [angles; maxbotix] ;; draw "fill" [angles; maxbotix] ;;
  draw "plot" [angles; generic] ;; draw "fill" [angles; generic] ;;
  draw "set_xticks" [firstn (length angles - 1) angles] ;;
  draw "set_xticklabels" [] ;; draw "set_ylim" [[0; 10]] ;;
  draw "set_title" [] ;; draw "legend" [] ;;
  (* Cost Comparison Bar Chart *)
  draw "subplot" [] ;;                        (* plt.subplot(122) *)
  draw "bar" [arange 5; costs] ;;
  draw "set_ylabel" [] ;; draw "set_title" [] ;; draw "grid" [] ;;
  for_each_then (combine (arange 5) costs)
    (fun bc => draw "text" [[fst bc - 0.4 + 0.8 / 2; snd bc + 200]]) (
  draw "annotate" [[0; 850]; [1.5; 2500]] ;;
  draw "tight_layout" [] ;;
  savefig comparison_png (Some 300%Z) ;;
  savefig comparison_pdf None ;;
  print "Comparison chart saved!").

(** [if __name__ == "__main__":] (lines 278-281) *)
Definition main : M unit :=
  create_accuracy_chart ;;
  create_environmental_tests ;;
  create_comparison_chart.

End Charts.

(** ** The other five scripts.  Their drawing phases are literal placement
    calls (helper calls such as [draw_process] and loops over literal lists
    included); each phase is one [draw_block] over its source lines. *)

Module BlockDiagram.
Import Plot.
Definition create_block_diagram : M unit :=
  new_figure ;;
  draw_block 13 150 ;;
  draw "tight_layout" [] ;;
  savefig "/workspaces/ultraman/research_paper/images/block_diagram.png" (Some 300%Z) ;;
  savefig "/workspaces/ultraman/research_paper/images/block_diagram.pdf" None ;;
  print "Block diagram saved!".
Definition main : M unit := create_block_diagram.
End BlockDiagram.

Module Enclosure.
Import Plot.
Definition create_enclosure_2d : M unit :=
  new_figure ;;
  draw_block 16 159 ;;
  draw "tight_layout" [] ;;
  savefig "/workspaces/ultraman/research_paper/images/enclosure_2d.png" (Some 300%Z) ;;
  savefig "/workspaces/ultraman/research_paper/images/enclosure_2d.pdf" None ;;
  print "2D enclosure design saved!".
(** [plt.figure] then [fig.add_subplot(111, projection='3d')] *)
Definition create_enclosure_3d : M unit :=
  new_figure ;;
  draw_block 171 297 ;;
  draw "tight_layout" [] ;;
  savefig "/workspaces/ultraman/research_paper/images/enclosure_3d.png" (Some 300%Z) ;;
  savefig "/workspaces/ultraman/research_paper/images/enclosure_3d.pdf" None ;;
  print "3D enclosure design saved!".
Definition create_mounting_diagram : M unit :=
  new_figure ;;
  draw_block 309 385 ;;
  draw "tight_layout" [] ;;
  savefig "/workspaces/ultraman/research_paper/images/mounting_diagram.png" (Some 300%Z) ;;
  savefig "/workspaces/ultraman/research_paper/images/mounting_diagram.pdf" None ;;
  print "Mounting diagram saved!".
Definition main : M unit :=
  create_enclosure_2d ;; create_enclosure_3d ;; create_mounting_diagram.
End Enclosure.

Module Flowcharts.
Import Plot.
Definition create_main_flowchart : M unit :=
  new_figure ;;
  draw_block 55 153 ;;
  draw "tight_layout" [] ;;
  savefig "/workspaces/ultraman/research_paper/images/flowchart_main.png" (Some 300%Z) ;;
  savefig "/workspaces/ultraman/research_paper/images/flowchart_main.pdf" None ;;
  print "Main flowchart saved!".
Definition create_adaptive_flowchart : M unit :=
  new_figure ;;
  draw_block 165 240 ;;
  draw "tight_layout" [] ;;
  savefig "/workspaces/ultraman/research_paper/images/flowchart_adaptive.png" (Some 300%Z) ;;
  savefig "/workspaces/ultraman/research_paper/images/flowchart_adaptive.pdf" None ;;
  print "Adaptive sampling flowchart saved!".
Definition create_outlier_flowchart : M unit :=
  new_figure ;;
  draw_block 252 306 ;;
  draw "tight_layout" [] ;;
  savefig "/workspaces/ultraman/research_paper/images/flowchart_outlier.png" (Some 300%Z) ;;
  savefig "/workspaces/ultraman/research_paper/images/flowchart_outlier.pdf" None ;;
  print "Outlier rejection flowchart saved!".
Definition main : M unit :=
  create_main_flowchart ;; create_adaptive_flowchart ;; create_outlier_flowchart.
End Flowcharts.

Module Pcb.
Import Plot.
Definition create_pcb_layout : M unit :=
  new_figure ;;
  draw_block 13 284 ;;
  draw "tight_layout" [] ;;
  savefig "/workspaces/ultraman/research_paper/images/pcb_layout.png" (Some 300%Z) ;;
  savefig "/workspaces/ultraman/research_paper/images/pcb_layout.pdf" None ;;
  print "PCB layout saved!".
Definition main : M unit := create_pcb_layout.
End Pcb.

Module Schematic.
Import Plot.
Definition create_schematic : M unit :=
  new_figure ;;
  draw_block 119 321 ;;
  draw "tight_layout" [] ;;
  savefig "/workspaces/ultraman/research_paper/images/circuit_schematic.png" (Some 300%Z) ;;
  savefig "/workspaces/ultraman/research_paper/images/circuit_schematic.pdf" None ;;
  print "Circuit schematic saved!".
Definition main : M unit := create_schematic.
End Schematic.

(** ** Shape helpers of generate_flowcharts.py (lines 11-50)

    A patch added with [ax.add_patch] is logged as a call named after the
    patch class, with its geometry: [Ellipse((x, y), w, h)] as
    [[x; y]; [w]; [h]], [FancyBboxPatch((x, y), w, h)] likewise, and
    [Polygon(vertices)] as its vertex list.  [ax.text(x, y, s)] is logged
    as [[x; y]] and [ax.annotate('', xy=(x2, y2), xytext=(x1, y1))] as
    [[x2; y2]; [x1; y1]]; strings, colours and fonts are not modelled.
    The [ax] argument is the figure's single axes, the current figure. *)

Module FlowchartShapes.
Import Plot.

(** Python truth value of a [str]: true unless empty. *)
Definition truthy (s : string) : bool :=
  match s with
  | EmptyString => false
  | String _ _ => true
  end.

(** [draw_start_end(ax, x, y, text, width=2, height=0.6)] *)
Definition draw_start_end (x y : Q) (text : string) (width height : Q) : M unit :=
  draw "Ellipse" [[x; y]; [width]; [height]] ;;
  draw "text" [[x; y]].

(** [draw_process(ax, x, y, text, width=2.5, height=0.8)] *)
Definition draw_process (x y : Q) (text : string) (width height : Q) : M unit :=
  draw "FancyBboxPatch" [[x - width / 2; y - height / 2]; [width]; [height]] ;;
  draw "text" [[x; y]].

(** [draw_decision(ax, x, y, text, size=0.8)] *)
Definition draw_decision (x y : Q) (text : string) (size : Q) : M unit :=
  draw "Polygon" [[x; y + size]; [x + size * 1.2; y]; [x; y - size]; [x - size * 1.2; y]] ;;
  draw "text" [[x; y]].

(** [draw_io(ax, x, y, text, width=2.2, height=0.7)] *)
Definition draw_io (x y : Q) (text : string) (width height : Q) : M unit :=
  let skew := 0.3 in
  draw "Polygon" [[x - width / 2 + skew; y + height / 2];
                  [x + width / 2 + skew; y + height / 2];
                  [x + width / 2 - skew; y - height / 2];
                  [x - width / 2 - skew; y - height / 2]] ;;
  draw "text" [[x; y]].


End FlowchartShapes.

(** ** Component symbols of generate_schematic.py (lines 13-115)

    Same conventions; [ax.plot(xs, ys)] is logged as [[xs; ys]],
    [Circle((x, y), r)] as [[x; y]; [r]] and
    [Arc((x, y), w, h, angle=a, theta1=t1, theta2=t2)] as
    [[x; y]; [w]; [h]; [a; t1; t2]]. *)

Module SchematicSymbols.
Import Plot.
Import FlowchartShapes.

(** [range(n)] as Python ints, i.e. [0 .. n-1]. *)
Definition qnat (i : nat) : Q := inject_Z (Z.of_nat i).

(** [draw_resistor(ax, x, y, width=0.8, height=0.2, label='', value='',
    vertical=False)]; [points] is built by the [for] loop, then
    [points[:, 0]] and [points[:, 1]] are plotted. *)
Definition draw_resistor (x y width height : Q) (label value : string)
    (vertical : bool) : M unit :=
  if vertical then
    let num_zigs := 6%nat in
    let points :=
      map (fun i =>
             (x + (if Nat.eqb (Nat.modulo i 2) 1 then 0.15
                   else if Nat.eqb (Nat.modulo i 2) 0 && Nat.ltb 0 i then -0.15 else 0),
              y + (qnat i / qnat num_zigs) * height))
          (seq 0 (num_zigs + 1)) in
    draw "plot" [map fst points; map snd points] ;;
    (if truthy label then draw "text" [[x + 0.25; y + height / 2]] else ret tt)
  else
    let num_zigs := 6%nat in
    let points :=
      map (fun i =>
             (x + (qnat i / qnat num_zigs) * width,
              y + (if Nat.eqb (Nat.modulo i 2) 1 then 0.1
                   else if Nat.eqb (Nat.modulo i 2) 0 && Nat.ltb 0 i then -0.1 else 0)))
          (seq 0 (num_zigs + 1)) in
    draw "plot" [map fst points; map snd points] ;;
    (if truthy label then draw "text" [[x + width / 2; y + 0.25]] else ret tt).


(** [draw_transistor_nmos(ax, x, y, label='')] *)
Definition draw_transistor_nmos (x y : Q) (label : string) : M unit :=
  (* Gate *)
  draw "plot" [[x - 0.3; x]; [y; y]] ;;
  draw "plot" [[x; x]; [y - 0.2; y + 0.2]] ;;
  (* Channel *)
  draw "plot" [[x + 0.1; x + 0.1]; [y - 0.25; y + 0.25]] ;;
  (* Source and Drain *)
  draw "plot" [[x + 0.1; x + 0.3]; [y - 0.2; y - 0.2]] ;;
  draw "plot" [[x + 0.1; x + 0.3]; [y + 0.2; y + 0.2]] ;;
  draw "plot" [[x + 0.3; x + 0.3]; [y - 0.2; y - 0.35]] ;;
  draw "plot" [[x + 0.3; x + 0.3]; [y + 0.2; y + 0.35]] ;;
  (* Arrow *)
  draw "annotate" [[x + 0.2; y]; [x + 0.1; y]] ;;
  (if truthy label then draw "text" [[x + 0.4; y]] else ret tt).

(** [draw_opamp(ax, x, y, label='')] *)
Definition draw_opamp (x y : Q) (label : string) : M unit :=
  draw "Polygon" [[x; y - 0.4]; [x; y + 0.4]; [x + 0.6; y]] ;;
  draw "text" [[x + 0.1; y + 0.15]] ;;
  draw "text" [[x + 0.1; y - 0.15]] ;;
  (if truthy label then draw "text" [[x + 0.3; y - 0.5]] else ret tt).

(** [draw_transducer(ax, x, y, label='TX')] *)
Definition draw_transducer (x y : Q) (label : string) : M unit :=
  (* Main circle *)
  draw "Circle" [[x; y]; [0.35]] ;;
  (* Inner element *)
  draw "Circle" [[x; y]; [0.2]] ;;
  (* Sound waves *)
  Charts.for_each_then (seq 0 3)
    (fun i => draw "Arc" [[x + 0.5 + qnat i * 0.15; y]; [0.2]; [0.4]; [0; 60; 300]]) (
  draw "text" [[x; y]]).

(** [draw_ic_package(ax, x, y, width, height, label, pins_left, pins_right)];
    [enumerate(pins)] is [combine (seq 0 (length pins)) pins]. *)
Definition draw_ic_package (x y width height : Q) (label : string)
    (pins_left pins_right : list string) : M unit :=
  draw "FancyBboxPatch" [[x; y]; [width]; [height]] ;;
  draw "text" [[x + width / 2; y + height / 2]] ;;
  (* Left pins *)
  let pin_spacing := height / qnat (length pins_left + 1) in
  Charts.for_each_then (combine (seq 0 (length pins_left)) pins_left)
    (fun ip =>
       let py := y + height - qnat (fst ip + 1) * pin_spacing in
       draw "plot" [[x - 0.2; x]; [py; py]] ;;
       draw "text" [[x - 0.25; py]]) (
  (* Right pins *)
  let pin_spacing := height / qnat (length pins_right + 1) in
  Charts.for_each_then (combine (seq 0 (length pins_right)) pins_right)
    (fun ip =>
       let py := y + height - qnat (fst ip + 1) * pin_spacing in
       draw "plot" [[x + width; x + width + 0.2]; [py; py]] ;;
       draw "text" [[x + width + 0.25; py]]) (ret tt)).

End SchematicSymbols.

Module Repo.
Import Plot.

(** The six scripts, by their entry points. *)
Definition scripts : list (M unit) :=
  [BlockDiagram.main; Charts.main; Enclosure.main; Flowcharts.main; Pcb.main; Schematic.main].

(** The twelve figure-producing procedures. *)
Definition procedures : list (M unit) :=
  [BlockDiagram.create_block_diagram;
   Charts.create_accuracy_chart; Charts.create_environmental_tests;
   Charts.create_comparison_chart;
   Enclosure.create_enclosure_2d; Enclosure.create_enclosure_3d;
   Enclosure.create_mounting_diagram;
   Flowcharts.create_main_flowchart; Flowcharts.create_adaptive_flowchart;
   Flowcharts.create_outlier_flowchart;
   Pcb.create_pcb_layout; Schematic.create_schematic].

(** Basenames of the figures, procedure by procedure. *)
Definition basenames : list string :=
  ["block_diagram"; "accuracy_results"; "environmental_results"; "comparison_chart";
   "enclosure_2d"; "enclosure_3d"; "mounting_diagram";
   "flowchart_main"; "flowchart_adaptive"; "flowchart_outlier";
   "pcb_layout"; "circuit_schematic"]%string.

Definition figure_files (base : string) : list string :=
  [images_dir ++ base ++ ".png"; images_dir ++ base ++ ".pdf"]%string.

(** The files each script writes, in order, when every call returns. *)
Definition outputs : list (list string) :=
  [figure_files "block_diagram";
   figure_files "accuracy_results" ++ figure_files "environmental_results"
     ++ figure_files "comparison_chart";
   figure_files "enclosure_2d" ++ figure_files "enclosure_3d"
     ++ figure_files "mounting_diagram";
   figure_files "flowchart_main" ++ figure_files "flowchart_adaptive"
     ++ figure_files "flowchart_outlier";
   figure_files "pcb_layout";
   figure_files "circuit_schematic"].

End Repo.

(** * Observations on runs *)

Module Obs.
Import Plot.

Definition written_files (evs : list event) : list string :=
  flat_map (fun e => match e with ESave _ p _ => [p] | _ => [] end) evs.

Definition save_targets (evs : list event) : list (string * option Z) :=
  flat_map (fun e => match e with ESave _ p d => [(p, d)] | _ => [] end) evs.

Definition printed (evs : list event) : list string :=
  flat_map (fun e => match e with EPrint m => [m] | _ => [] end) evs.

Definition is_read (e : event) : bool :=
  match e with ERead _ => true | _ => false end.

Definition no_reads (evs : list event) : Prop := existsb is_read evs = false.

(** Single-pass discipline over a call sequence: a figure is drawn on or
    saved only once it is open, and never drawn on once it has been saved. *)
Fixpoint single_pass (opened saved : list nat) (evs : list event) : bool :=
  match evs with
  | [] => true
  | EFigure f :: t => negb (existsb (Nat.eqb f) opened) && single_pass (f :: opened) saved t
  | EDraw f _ :: t =>
      existsb (Nat.eqb f) opened && negb (existsb (Nat.eqb f) saved)
      && single_pass opened saved t
  | ESave f _ _ :: t => existsb (Nat.eqb f) opened && single_pass opened (f :: saved) t
  | _ :: t => single_pass opened saved t
  end.

(** The library always returns normally. *)
Definition lib_ok : list event -> event -> option string := fun _ _ => None.
Definition no_files : string -> option string := fun _ => None.

End Obs.

(** * Error propagation: every library error surfaces unchanged *)

Module Propagation.
Import Plot.

(** [all_returned lib log new]: each call of [new] (newest first, issued on
    top of [log]) returned normally. *)
Fixpoint all_returned (lib : list event -> event -> option string)
    (log new : list event) : Prop :=
  match new with
  | [] => True
  | e :: rest => lib (rest ++ log) e = None /\ all_returned lib log rest
  end.

(** From [s0] to [s1] with result [r]: the calls issued in between all
    returned, or all but the last did and the result is exactly the error the
    library raised on that last call. *)
Definition propagates {A} (lib : list event -> event -> option string)
    (s0 s1 : st) (r : exc + A) : Prop :=
  exists new, s_log s1 = new ++ s_log s0 /\
    match r with
    | inr _ => all_returned lib (s_log s0) new
    | inl (LibraryError m) =>
        exists ev rest, new = ev :: rest /\ all_returned lib (s_log s0) rest
                        /\ lib (rest ++ s_log s0) ev = Some m
    end.

Definition faithful {A} (m : M A) : Prop :=
  forall w s, propagates (w_lib w) s (fst (m w s)) (snd (m w s)).

Lemma all_returned_app lib log n1 n2 :
  all_returned lib log (n2 ++ n1) <->
  all_returned lib (n1 ++ log) n2 /\ all_returned lib log n1.
Proof.
  induction n2 as [|e n2 IH]; simpl.
  - tauto.
  - rewrite IH, app_assoc. tauto.
Qed.

Lemma faithful_ret {A} (a : A) : faithful (ret a).
Proof. intros w s. exists []. simpl. auto. Qed.

Lemma faithful_issue ev : faithful (issue ev).
Proof.
  intros w s. unfold issue.
  destruct (w_lib w (s_log s) ev) as [m|] eqn:E; simpl; exists [ev]; simpl.
  - split; [reflexivity|]. exists ev, []. simpl. auto.
  - split; [reflexivity|]. auto.
Qed.

Lemma faithful_new_figure : faithful new_figure.
Proof. intros w s. apply (faithful_issue _ w (mkSt _ _ _ (s_log s))). Qed.

Lemma faithful_draw name data : faithful (draw name data).
Proof. intros w s. apply faithful_issue. Qed.

Lemma faithful_draw_block lo hi : faithful (draw_block lo hi).
Proof. intros w s. apply faithful_issue. Qed.

Lemma faithful_savefig p d : faithful (savefig p d).
Proof. intros w s. apply faithful_issue. Qed.

Lemma faithful_print m : faithful (print m).
Proof. apply faithful_issue. Qed.

Lemma faithful_normal loc scale n : faithful (normal loc scale n).
Proof. intros w s. exists []. simpl. auto. Qed.

Lemma faithful_bind {A B} (m : M A) (k : A -> M B) :
  faithful m -> (forall a, faithful (k a)) -> faithful (bind m k).
Proof.
  intros Hm Hk w s. unfold bind.
  specialize (Hm w s). destruct (m w s) as [s1 [e|a]] eqn:E; simpl in *.
  - exact Hm.
  - destruct Hm as [n1 [L1 R1]].
    specialize (Hk a w s1). destruct (k a w s1) as [s2 r2]; simpl in *.
    destruct Hk as [n2 [L2 R2]].
    exists (n2 ++ n1). split; [rewrite L2, L1, app_assoc; reflexivity|].
    rewrite L1 in R2. destruct r2 as [[msg]|b].
    + destruct R2 as [ev [rest [-> [Hr Hl]]]].
      exists ev, (rest ++ n1). split; [reflexivity|].
      split; [apply all_returned_app; auto|].
      rewrite <- app_assoc. exact Hl.
    + apply all_returned_app. auto.
Qed.

Lemma faithful_for_each_then {A B} (l : list A) body (rest : M B) :
  (forall x, faithful (body x)) -> faithful rest ->
  faithful (Charts.for_each_then l body rest).
Proof.
  intros Hb Hr. induction l as [|x l IH]; simpl.
  - exact Hr.
  - apply faithful_bind; auto.
Qed.

(** The predicate is not vacuous: a [try]/[except] that swallows the error
    of a failing call is not [faithful]. *)
Lemma try_except_not_faithful :
  ~ faithful (try_except (issue (EPrint "x")) (fun _ => ret tt)).
Proof.
  intros H.
  specialize (H (mkWorld (fun _ => 0) (fun _ _ => Some "boom"%string) [] [] Obs.no_files) init_st).
  destruct H as [new [L R]]. simpl in L, R.
  rewrite app_nil_r in L. subst new. simpl in R. destruct R as [R _]. discriminate R.
Qed.

Create HintDb faithful_db.
#[export] Hint Resolve faithful_ret faithful_issue faithful_new_figure faithful_draw
  faithful_draw_block faithful_savefig faithful_print faithful_normal : faithful_db.

Ltac prove_faithful :=
  repeat first
    [ apply faithful_bind; intros
    | apply faithful_for_each_then; intros
    | solve [auto with faithful_db] ].

End Propagation.

(** * Runs against a library that never raises *)

Module OkRun.
Import Plot Propagation.

Definition with_lib_ok (w : world) : world :=
  mkWorld (w_rng w) Obs.lib_ok (w_argv w) (w_environ w) (w_files w).

(** A computation that succeeds is unaffected by replacing the library with
    one that never raises; one that fails has issued a prefix of the calls
    the never-raising run issues. *)
Definition ok_prefix {A} (m : M A) : Prop :=
  forall w s,
    match m w s with
    | (s1, inr a) => m (with_lib_ok w) s = (s1, inr a)
    | (s1, inl _) => exists new, s_log (fst (m (with_lib_ok w) s)) = new ++ s_log s1
    end.

Lemma ok_prefix_ret {A} (a : A) : ok_prefix (ret a).
Proof. intros w s. reflexivity. Qed.

Lemma ok_prefix_issue ev : ok_prefix (issue ev).
Proof.
  intros w s. unfold issue.
  destruct (w_lib w (s_log s) ev); [exists []|]; reflexivity.
Qed.

Lemma ok_prefix_new_figure : ok_prefix new_figure.
Proof. intros w s. apply (ok_prefix_issue _ w (mkSt _ _ _ (s_log s))). Qed.

Lemma ok_prefix_draw name data : ok_prefix (draw name data).
Proof. intros w s. apply ok_prefix_issue. Qed.

Lemma ok_prefix_draw_block lo hi : ok_prefix (draw_block lo hi).
Proof. intros w s. apply ok_prefix_issue. Qed.

Lemma ok_prefix_savefig p d : ok_prefix (savefig p d).
Proof. intros w s. apply ok_prefix_issue. Qed.

Lemma ok_prefix_print m : ok_prefix (print m).
Proof. apply ok_prefix_issue. Qed.

Lemma ok_prefix_normal loc scale n : ok_prefix (normal loc scale n).
Proof. intros w s. reflexivity. Qed.

Lemma faithful_extends {A} (m : M A) w s :
  faithful m -> exists new, s_log (fst (m w s)) = new ++ s_log s.
Proof. intros H. destruct (H w s) as [new [L _]]. eauto. Qed.

Lemma ok_prefix_bind {A B} (m : M A) (k : A -> M B) :
  ok_prefix m -> (forall a, ok_prefix (k a)) -> (forall a, faithful (k a)) ->
  ok_prefix (bind m k).
Proof.
  intros Hm Hk Fk w s. unfold bind.
  specialize (Hm w s). destruct (m w s) as [s1 [e|a]].
  - destruct Hm as [n1 L1].
    destruct (m (with_lib_ok w) s) as [s2 [e2|a2]]; simpl in *.
    + eauto.
    + destruct (faithful_extends (k a2) (with_lib_ok w) s2 (Fk a2)) as [n2 L2].
      rewrite L2, L1, app_assoc. eauto.
  - rewrite Hm. apply Hk.
Qed.

Lemma ok_prefix_for_each_then {A B} (l : list A) body (rest : M B) :
  (forall x, ok_prefix (body x)) -> (forall x, faithful (body x)) ->
  ok_prefix rest -> faithful rest ->
  ok_prefix (Charts.for_each_then l body rest).
Proof.
  intros Hb Fb Hr Fr. induction l as [|x l IH]; simpl.
  - exact Hr.
  - apply ok_prefix_bind; auto.
    intros _. apply faithful_for_each_then; assumption.
Qed.

Create HintDb ok_prefix_db.
#[export] Hint Resolve ok_prefix_ret ok_prefix_issue ok_prefix_new_figure ok_prefix_draw
  ok_prefix_draw_block ok_prefix_savefig ok_prefix_print ok_prefix_normal : ok_prefix_db.

Ltac prove_ok_prefix :=
  repeat first
    [ apply ok_prefix_bind; intros
    | apply ok_prefix_for_each_then; intros
    | solve [auto with ok_prefix_db]
    | solve [prove_faithful] ].

End OkRun.

(** * Properties of the scripts *)

Module Props.
Import Plot Obs Propagation OkRun.

(** ** Shared lemmas and tactics *)

(** The calls issued between [log0] and [log1] save, in this order, a .png at
    300 dpi and a .pdf with the same directory and basename [base]. *)
Definition saves_png_then_pdf (log0 log1 : list event) (base : string) : Prop :=
  exists new, log1 = new ++ log0 /\
    save_targets (rev new)
    = [(images_dir ++ base ++ ".png", Some 300%Z); (images_dir ++ base ++ ".pdf", None)]%string.

(** [log1] is [log0] extended by calls of which the first opens figure [f]. *)
Definition opens_with_figure (log0 log1 : list event) (f : nat) : Prop :=
  exists new, log1 = new ++ log0 /\ last new (EPrint "") = EFigure f.

Lemma scripts_faithful :
  Forall (fun p => Propagation.faithful p) Repo.scripts.
Proof.
  unfold Repo.scripts.
  repeat constructor;
    cbv delta [BlockDiagram.main BlockDiagram.create_block_diagram
               Charts.main Charts.create_accuracy_chart
               Charts.create_environmental_tests Charts.create_comparison_chart
               Enclosure.main Enclosure.create_enclosure_2d Enclosure.create_enclosure_3d
               Enclosure.create_mounting_diagram
               Flowcharts.main Flowcharts.create_main_flowchart
               Flowcharts.create_adaptive_flowchart Flowcharts.create_outlier_flowchart
               Pcb.main Pcb.create_pcb_layout Schematic.main Schematic.create_schematic];
    Propagation.prove_faithful.
Qed.

Lemma procedures_ok_prefix : Forall (fun p => ok_prefix p) Repo.procedures.
Proof.
  unfold Repo.procedures.
  repeat constructor;
    cbv delta [BlockDiagram.create_block_diagram
               Charts.create_accuracy_chart
               Charts.create_environmental_tests Charts.create_comparison_chart
               Enclosure.create_enclosure_2d Enclosure.create_enclosure_3d
               Enclosure.create_mounting_diagram
               Flowcharts.create_main_flowchart
               Flowcharts.create_adaptive_flowchart Flowcharts.create_outlier_flowchart
               Pcb.create_pcb_layout Schematic.create_schematic];
    prove_ok_prefix.
Qed.

Lemma scripts_ok_prefix : Forall (fun p => ok_prefix p) Repo.scripts.
Proof.
  unfold Repo.scripts.
  repeat constructor;
    cbv delta [BlockDiagram.main BlockDiagram.create_block_diagram
               Charts.main Charts.create_accuracy_chart
               Charts.create_environmental_tests Charts.create_comparison_chart
               Enclosure.main Enclosure.create_enclosure_2d Enclosure.create_enclosure_3d
               Enclosure.create_mounting_diagram
               Flowcharts.main Flowcharts.create_main_flowchart
               Flowcharts.create_adaptive_flowchart Flowcharts.create_outlier_flowchart
               Pcb.main Pcb.create_pcb_layout Schematic.main Schematic.create_schematic];
    prove_ok_prefix.
Qed.

(** The calls of any run are a prefix of those of the never-raising run. *)
Lemma run_prefix p :
  ok_prefix p -> forall w, exists tail, events (run p (with_lib_ok w)) = events (run p w) ++ tail.
Proof.
  intros H w. specialize (H w init_st). unfold events, run.
  destruct (p w init_st) as [s1 [e|a]]; simpl.
  - destruct H as [new L]. rewrite L, rev_app_distr. eauto.
  - rewrite H. exists []. simpl. symmetry. apply app_nil_r.
Qed.

(** A run that succeeds is the never-raising run. *)
Lemma run_success p :
  ok_prefix p -> forall w, snd (run p w) = inr tt -> run p w = run p (with_lib_ok w).
Proof.
  intros H w Hs. specialize (H w init_st). unfold run in *.
  destruct (p w init_st) as [s1 [e|a]]; simpl in *; [discriminate|].
  rewrite H. destruct a. reflexivity.
Qed.

Lemma single_pass_app o sv l t :
  single_pass o sv (l ++ t) = true -> single_pass o sv l = true.
Proof.
  revert o sv. induction l as [|e l IH]; intros o sv H; [reflexivity|].
  destruct e; simpl in *;
    repeat match goal with
           | H : (_ && _)%bool = true |- _ => apply andb_prop in H as [? ?]
           end;
    repeat (apply andb_true_intro; split); eauto.
Qed.

(** Two runs of [bind m k] agree when the runs of [m] agree and, after
    [m] returns normally, the runs of [k] agree. *)
Lemma bind_congr {A B} (m : M A) (k : A -> M B) w1 w2 s :
  m w1 s = m w2 s ->
  (forall s' a, m w1 s = (s', inr a) -> k a w1 s' = k a w2 s') ->
  bind m k w1 s = bind m k w2 s.
Proof.
  intros Hm Hk. unfold bind. rewrite <- Hm.
  destruct (m w1 s) as [s' [e|a]] eqn:E; [reflexivity|]. apply Hk. reflexivity.
Qed.

(** [np.random.normal] only reads the stream positions it consumes. *)
Lemma normal_agree rng1 rng2 lib argv environ files loc scale n s :
  (forall i, (s_rng s <= i < s_rng s + n)%nat -> rng1 i = rng2 i) ->
  normal loc scale n (mkWorld rng1 lib argv environ files) s
  = normal loc scale n (mkWorld rng2 lib argv environ files) s.
Proof.
  intros H. unfold normal. simpl. do 2 f_equal.
  apply map_ext_in. intros i Hi. apply in_seq in Hi.
  rewrite H by lia. reflexivity.
Qed.

(** A procedure that succeeds from any state is the never-raising run. *)
Lemma proc_success (p : M unit) w s :
  ok_prefix p -> snd (p w s) = inr tt -> p w s = p (with_lib_ok w) s.
Proof.
  intros H Hs. specialize (H w s).
  destruct (p w s) as [s1 [e|a]]; simpl in *; [discriminate|].
  rewrite H. destruct a. reflexivity.
Qed.

Inductive sublist {A} : list A -> list A -> Prop :=
| sl_nil : sublist [] []
| sl_skip x l l' : sublist l l' -> sublist l (x :: l')
| sl_keep x l l' : sublist l l' -> sublist (x :: l) (x :: l').

Lemma sublist_refl {A} (l : list A) : sublist l l.
Proof. induction l; [apply sl_nil | apply sl_keep; assumption]. Qed.

Lemma sublist_app {A} (a a' b b' : list A) :
  sublist a a' -> sublist b b' -> sublist (a ++ b) (a' ++ b').
Proof.
  intros H1 H2. induction H1; simpl; [exact H2 | apply sl_skip | apply sl_keep]; assumption.
Qed.

Lemma sublist_prefix {A} (l t : list A) : sublist l (l ++ t).
Proof.
  induction l as [|x l IH]; simpl.
  - induction t; constructor; auto.
  - apply sl_keep. exact IH.
Qed.

Lemma sublist_in {A} (l l' : list A) x : sublist l l' -> In x l -> In x l'.
Proof. intros H. induction H; simpl; intuition. Qed.

Lemma NoDup_sublist {A} (l l' : list A) : sublist l l' -> NoDup l' -> NoDup l.
Proof.
  intros H. induction H; intros N.
  - constructor.
  - inversion N; auto.
  - inversion N; subst. constructor; eauto using sublist_in.
Qed.

(** The files written by any run of a script are a prefix of its outputs,
    and the run reads no file. *)
Lemma written_prefix p outs :
  ok_prefix p ->
  (forall w, written_files (events (run p (with_lib_ok w))) = outs
             /\ no_reads (events (run p (with_lib_ok w)))) ->
  forall w, sublist (written_files (events (run p w))) outs /\ no_reads (events (run p w)).
Proof.
  intros H Hok w. destruct (run_prefix p H w) as [tail Et].
  destruct (Hok w) as [Ew Er]. rewrite Et in Ew, Er.
  unfold written_files in Ew. rewrite flat_map_app in Ew. rewrite <- Ew.
  split; [apply sublist_prefix|].
  unfold no_reads in *. rewrite existsb_app in Er.
  apply Bool.orb_false_elim in Er. apply Er.
Qed.

Lemma opens_bind_new_figure (k : unit -> M unit) :
  (forall a, faithful (k a)) ->
  forall w s, opens_with_figure (s_log s) (s_log (fst (bind new_figure k w s))) (S (s_nfig s)).
Proof.
  intros Fk w s. unfold bind, new_figure, issue; simpl.
  destruct (w_lib w (s_log s) (EFigure (S (s_nfig s)))); simpl.
  - exists [EFigure (S (s_nfig s))]. split; reflexivity.
  - destruct (faithful_extends (k tt) w
                (mkSt (s_rng s) (S (s_nfig s)) (S (s_nfig s)) (EFigure (S (s_nfig s)) :: s_log s))
                (Fk tt)) as [n2 L2].
    simpl in L2. rewrite L2.
    exists (n2 ++ [EFigure (S (s_nfig s))]). split.
    + rewrite <- app_assoc. reflexivity.
    + apply last_last.
Qed.

Fixpoint nodupb (l : list string) : bool :=
  match l with
  | [] => true
  | x :: t => negb (existsb (String.eqb x) t) && nodupb t
  end.

Lemma nodupb_NoDup l : nodupb l = true -> NoDup l.
Proof.
  induction l as [|x t IH]; simpl; intros H; [constructor|].
  apply andb_prop in H as [H1 H2]. constructor; auto.
  intros Hin. apply Bool.negb_true_iff in H1.
  assert (existsb (String.eqb x) t = true) by
    (apply existsb_exists; exists x; split; [exact Hin | apply String.eqb_refl]).
  congruence.
Qed.

(** A world with a constant random stream and a library that never raises. *)
Definition quiet_world (z : Q) : world := mkWorld (fun _ => z) lib_ok [] [] no_files.

Lemma scripts_written :
  Forall2 (fun p outs => forall w,
             sublist (written_files (events (run p w))) outs /\ no_reads (events (run p w)))
    Repo.scripts Repo.outputs.
Proof.
  pose proof scripts_ok_prefix as Hs. unfold Repo.scripts, Repo.outputs in *.
  repeat match goal with
         | H : Forall _ (_ :: _) |- _ => apply Forall_cons_iff in H as [? ?]
         end.
  repeat apply Forall2_cons; try apply Forall2_nil;
    match goal with
    | H : ok_prefix ?p |- forall w, sublist (written_files (events (run ?p _))) _ /\ _ =>
        apply (written_prefix p _ H); intros [r l a e f]; vm_compute; split; reflexivity
    end.
Qed.

(** A world whose library refuses to write [path]. *)
Definition unwritable (path : string) : world :=
  mkWorld (fun _ => 0)
    (fun _ ev => match ev with
                 | ESave _ p _ => if String.eqb p path then Some "PermissionError"%string else None
                 | _ => None
                 end)
    [] [] no_files.

(** With the raster output of the block diagram unwritable, the run stops at
    that save with the library's error: the vector file is never attempted. *)
Lemma block_diagram_unwritable_png :
  let r := run BlockDiagram.main
             (unwritable "/workspaces/ultraman/research_paper/images/block_diagram.png") in
  snd r = inl (LibraryError "PermissionError") /\
  written_files (events r) = ["/workspaces/ultraman/research_paper/images/block_diagram.png"%string] /\
  printed (events r) = [].
Proof. vm_compute. auto. Qed.


(** Evaluate a run symbolically, leaving arithmetic on random draws folded. *)
Ltac eval_run :=
  cbv -[Qplus Qmult Qminus Qopp Qdiv Qabs Qle_bool inject_Z opens_with_figure saves_png_then_pdf].
(** The calls issued on top of a log [t], newest first. *)
Ltac log_prefix l t :=
  match l with
  | t => constr:(@nil event)
  | ?e :: ?r => let r' := log_prefix r t in constr:(e :: r')
  end.

(** ** C1 *)

(** C1 (as amended): the random stream matters only to generate_charts.py,
    and there only through the 25 draws of the 24-hour stability panel of
    create_environmental_tests (stream positions 10 to 34; positions 0 to 9
    feed create_accuracy_chart's perturbed array, which line 22 discards).
    The five other scripts behave identically for any two random streams. *)
Theorem random_stream_only_in_stability_panel :
  Forall (fun p => forall rng1 rng2 lib argv environ files,
            run p (mkWorld rng1 lib argv environ files)
            = run p (mkWorld rng2 lib argv environ files))
    [BlockDiagram.main; Enclosure.main; Flowcharts.main; Pcb.main; Schematic.main] /\
  (forall rng1 rng2 lib argv environ files,
     (forall i, (10 <= i < 35)%nat -> rng1 i = rng2 i) ->
     run Charts.main (mkWorld rng1 lib argv environ files)
     = run Charts.main (mkWorld rng2 lib argv environ files)).
Proof.
  split.
  - repeat constructor; intros; reflexivity.
  - intros rng1 rng2 lib argv environ files H.
    pose proof procedures_ok_prefix as Hp. unfold Repo.procedures in Hp.
    repeat match goal with
           | H : Forall _ (_ :: _) |- _ => apply Forall_cons_iff in H as [? ?]
           end.
    unfold run, Charts.main. apply bind_congr; [eval_run; reflexivity|].
    intros s1 [] E1.
    assert (Hacc : ok_prefix Charts.create_accuracy_chart) by assumption.
    rewrite (proc_success _ _ _ Hacc (f_equal snd E1)) in E1.
    vm_compute in E1. injection E1 as <-.
    apply bind_congr; [|intros; eval_run; reflexivity].
    cbv -[Qplus Qmult Qminus Qopp Qdiv Qabs Qle_bool inject_Z normal].
    rewrite (normal_agree rng1 rng2) by (intros i Hi; apply H; simpl in Hi; lia).
    reflexivity.
Qed.

(** Two streams that differ only in the draws create_accuracy_chart discards
    give the same run of generate_charts.py. *)
Lemma random_stream_only_in_stability_panel_witness :
  (forall i, (10 <= i < 35)%nat ->
     (fun j => if Nat.ltb j 10 then 1 else 0) i = (fun _ => 0) i) /\
  run Charts.main (mkWorld (fun j => if Nat.ltb j 10 then 1 else 0) lib_ok [] [] no_files)
  = run Charts.main (mkWorld (fun _ => 0) lib_ok [] [] no_files).
Proof.
  assert (Hr : forall i, (10 <= i < 35)%nat ->
                 (fun j => if Nat.ltb j 10 then 1 else 0) i = (fun _ : nat => 0) i).
  { intros i Hi. simpl. destruct (Nat.ltb i 10) eqn:E; [apply PeanoNat.Nat.ltb_lt in E; lia | reflexivity]. }
  split; [exact Hr|].
  exact (proj2 random_stream_only_in_stability_panel _ _ lib_ok [] [] no_files Hr).
Defined.

(** C1 fails as stated: with every draw 0 and with every draw 1,
    generate_charts.py plots different stability-panel levels. *)
Lemma charts_depend_on_random_stream :
  run Charts.main (quiet_world 0) <> run Charts.main (quiet_world 1).
Proof.
  intros H. apply (f_equal events) in H. vm_compute in H. discriminate H.
Qed.

(** ** C2 *)

(** C2 (as amended): a successful run of a script writes, in order, a .png
    and a .pdf for each figure procedure its main block calls (two files for
    generate_block_diagram.py, generate_pcb.py and generate_schematic.py, six
    for generate_charts.py, generate_enclosure.py and generate_flowcharts.py),
    prints one line per figure, and reads no file. *)
Theorem scripts_write_two_files_per_figure :
  Forall2 (fun p outs => forall w,
             snd (run p w) = inr tt ->
             written_files (events (run p w)) = outs /\
             (length (printed (events (run p w))) * 2 = length outs)%nat /\
             no_reads (events (run p w)))
    Repo.scripts Repo.outputs.
Proof.
  pose proof scripts_ok_prefix as Hs. unfold Repo.scripts, Repo.outputs in *.
  repeat match goal with
         | H : Forall _ (_ :: _) |- _ => apply Forall_cons_iff in H as [? ?]
         end.
  repeat apply Forall2_cons; try apply Forall2_nil;
    match goal with
    | H : ok_prefix ?p |- forall w, snd (run ?p w) = inr tt -> _ =>
        intros w Hw; rewrite (run_success p H w Hw); destruct w;
        vm_compute; repeat split; reflexivity
    end.
Qed.

Lemma scripts_write_two_files_per_figure_witness :
  snd (run Charts.main (quiet_world 0)) = inr tt /\
  written_files (events (run Charts.main (quiet_world 0)))
    = nth 1 Repo.outputs [] /\
  (length (printed (events (run Charts.main (quiet_world 0)))) * 2
     = length (nth 1 Repo.outputs []))%nat /\
  no_reads (events (run Charts.main (quiet_world 0))).
Proof.
  assert (Hs : snd (run Charts.main (quiet_world 0)) = inr tt) by (vm_compute; reflexivity).
  split; [exact Hs|].
  pose proof scripts_write_two_files_per_figure as H.
  unfold Repo.scripts, Repo.outputs in H.
  inversion H as [|? ? ? ? _ H1]; subst.
  inversion H1 as [|? ? ? ? H2 _]; subst.
  exact (H2 (quiet_world 0) Hs).
Defined.

(** C2 fails as stated: generate_charts.py writes six files, not two, and
    printing to standard output is a second external effect. *)
Lemma charts_writes_six_files :
  length (written_files (events (run Charts.main (quiet_world 0)))) = 6%nat /\
  printed (events (run Charts.main (quiet_world 0)))
  = ["Accuracy results chart saved!"; "Environmental test results saved!";
     "Comparison chart saved!"]%string.
Proof. vm_compute. split; reflexivity. Qed.

(** ** C3 *)

(** C3: every figure procedure, run successfully from any interpreter state,
    saves exactly twice: first [images_dir/<base>.png] at dpi 300, then
    [images_dir/<base>.pdf] with no dpi, for one basename per procedure. *)
Theorem procedures_save_png_then_pdf :
  Forall2 (fun (p : M unit) base => forall w s,
             snd (p w s) = inr tt ->
             saves_png_then_pdf (s_log s) (s_log (fst (p w s))) base)
    Repo.procedures Repo.basenames.
Proof.
  pose proof procedures_ok_prefix as Hs. unfold Repo.procedures, Repo.basenames in *.
  repeat match goal with
         | H : Forall _ (_ :: _) |- _ => apply Forall_cons_iff in H as [? ?]
         end.
  repeat apply Forall2_cons; try apply Forall2_nil;
    match goal with
    | H : ok_prefix ?p |- forall w s, snd (?p w s) = inr tt -> _ =>
        intros w s Hw; rewrite (proc_success p w s H Hw); destruct w, s;
        eval_run; unfold saves_png_then_pdf;
        match goal with
        | |- exists new, ?L = new ++ ?t /\ _ =>
            let n := log_prefix L t in exists n; split; [reflexivity | vm_compute; reflexivity]
        end
    end.
Qed.

Lemma procedures_save_png_then_pdf_witness :
  snd (Pcb.create_pcb_layout (quiet_world 0) init_st) = inr tt /\
  saves_png_then_pdf [] (s_log (fst (Pcb.create_pcb_layout (quiet_world 0) init_st)))
    "pcb_layout".
Proof.
  assert (Hs : snd (Pcb.create_pcb_layout (quiet_world 0) init_st) = inr tt)
    by (vm_compute; reflexivity).
  split; [exact Hs|].
  pose proof procedures_save_png_then_pdf as H.
  unfold Repo.procedures, Repo.basenames in H.
  repeat match type of H with
         | Forall2 _ (Pcb.create_pcb_layout :: _) _ =>
             inversion H as [|? ? ? ? H0 _]; clear H; rename H0 into H
         | Forall2 _ (_ :: _) _ => inversion H as [|? ? ? ? _ H0]; clear H; rename H0 into H
         end.
  exact (H (quiet_world 0) init_st Hs).
Defined.

(** ** C6 *)

(** C6: the scripts write pairwise disjoint sets of files, whatever the
    world each one runs in (so also when a run aborts part-way), and no
    script reads any file. *)
Theorem scripts_independent :
  (forall w1 w2 w3 w4 w5 w6 : world,
     NoDup (written_files (events (run BlockDiagram.main w1))
            ++ written_files (events (run Charts.main w2))
            ++ written_files (events (run Enclosure.main w3))
            ++ written_files (events (run Flowcharts.main w4))
            ++ written_files (events (run Pcb.main w5))
            ++ written_files (events (run Schematic.main w6)))) /\
  Forall (fun p => forall w, no_reads (events (run p w))) Repo.scripts.
Proof.
  pose proof scripts_written as H. unfold Repo.scripts, Repo.outputs in *.
  inversion H as [|? ? ? ? H1 T1]; subst; clear H.
  inversion T1 as [|? ? ? ? H2 T2]; subst; clear T1.
  inversion T2 as [|? ? ? ? H3 T3]; subst; clear T2.
  inversion T3 as [|? ? ? ? H4 T4]; subst; clear T3.
  inversion T4 as [|? ? ? ? H5 T5]; subst; clear T4.
  inversion T5 as [|? ? ? ? H6 T6]; subst; clear T5.
  split.
  - intros w1 w2 w3 w4 w5 w6.
    eapply NoDup_sublist.
    + apply sublist_app; [apply (proj1 (H1 w1))|].
      apply sublist_app; [apply (proj1 (H2 w2))|].
      apply sublist_app; [apply (proj1 (H3 w3))|].
      apply sublist_app; [apply (proj1 (H4 w4))|].
      apply sublist_app; [apply (proj1 (H5 w5))|].
      apply (proj1 (H6 w6)).
    + apply nodupb_NoDup. vm_compute. reflexivity.
  - repeat constructor; intros w;
      [apply (proj2 (H1 w)) | apply (proj2 (H2 w)) | apply (proj2 (H3 w))
      | apply (proj2 (H4 w)) | apply (proj2 (H5 w)) | apply (proj2 (H6 w))].
Qed.

(** ** C4 *)

(** C4: no script handles errors.  In every run of every script, under any
    behaviour of the plotting library, either every call returns normally, or
    the run ends at the first call that raises, with exactly the error that
    call raised: no call is issued after it (no retry, no recovery) and the
    error is not replaced (no handler). *)
Theorem scripts_propagate_library_errors :
  Forall (fun p => forall w,
            Propagation.propagates (w_lib w) init_st (fst (run p w)) (snd (run p w)))
    Repo.scripts.
Proof.
  eapply Forall_impl; [|exact scripts_faithful].
  intros p Hp w. exact (Hp w init_st).
Qed.

(** ** C8 *)

(** C8: the hard-coded measured distances of create_accuracy_chart are within
    1 cm of the actual ones at all ten test points, so every plotted error
    bar lies strictly between the -1 cm and +1 cm threshold lines. *)
Theorem accuracy_errors_within_threshold :
  length Charts.measured_distances = length Charts.actual_distances /\
  length Charts.actual_distances = 10%nat /\
  Forall2 (fun m a => Qabs (m - a) < 0.01) Charts.measured_distances Charts.actual_distances /\
  Forall (fun e => -1 < e /\ e < 1) Charts.errors.
Proof.
  split; [reflexivity|]. split; [reflexivity|]. split.
  - repeat constructor.
  - vm_compute. repeat constructor.
Qed.

(** ** C9 *)

Lemma clip1_bounds lo hi x : lo <= hi -> lo <= Charts.clip1 lo hi x <= hi.
Proof.
  intros Hlh. unfold Charts.clip1.
  destruct (Qle_bool lo x) eqn:E1.
  - apply Qle_bool_iff in E1.
    destruct (Qle_bool x hi) eqn:E2.
    + apply Qle_bool_iff in E2. split; assumption.
    + split; [exact Hlh | apply Qle_refl].
  - destruct (Qle_bool lo hi) eqn:E2.
    + split; [apply Qle_refl | exact Hlh].
    + apply Qle_bool_iff in Hlh. congruence.
Qed.

(** C9: whatever noise is drawn, every plotted level of the 24-hour stability
    panel lies in [1.48, 1.52] (1.5 +- 0.02) after clipping, hence inside the
    panel's y-limits [1.45, 1.55]. *)
Theorem stability_levels_clipped :
  forall noise : list Q,
    Forall (fun y => 1.48 <= y <= 1.52 /\ 1.45 <= y <= 1.55)
      (Charts.measured_levels_of noise).
Proof.
  intros noise. unfold Charts.measured_levels_of, Charts.clip.
  apply Forall_forall. intros y Hy.
  apply in_map_iff in Hy as [x [<- _]].
  destruct (clip1_bounds (Charts.actual_level - 0.02) (Charts.actual_level + 0.02) x)
    as [L U]; [vm_compute; discriminate|].
  assert (A1 : 1.48 <= Charts.actual_level - 0.02) by (vm_compute; discriminate).
  assert (A2 : Charts.actual_level + 0.02 <= 1.52) by (vm_compute; discriminate).
  assert (A3 : 1.45 <= 1.48) by (vm_compute; discriminate).
  assert (A4 : 1.52 <= 1.55) by (vm_compute; discriminate).
  split; split; eauto using Qle_trans.
Qed.

(** ** C10 *)

(** C10: after "Complete the loop", the three radar series and the angles list
    have N + 1 = 7 elements and end with their first element, so each radar
    polygon is closed. *)
Theorem radar_series_closed :
  Forall (fun xs => length xs = S Charts.N /\ length xs = 7%nat /\
                    last xs 0 = hd 0 xs)
    [Charts.complete_loop Charts.custom_sensor; Charts.complete_loop Charts.maxbotix;
     Charts.complete_loop Charts.generic; Charts.complete_loop Charts.angles].
Proof. repeat constructor. Qed.

(** ** C5 *)

(** C5: every procedure starts by opening a figure, and in every run of every
    script (under any library behaviour) each placement call and each save
    targets an already opened figure, and no figure is drawn on after it has
    been saved. *)
Theorem single_pass_procedures :
  Forall (fun p : M unit => forall w s,
            opens_with_figure (s_log s) (s_log (fst (p w s))) (S (s_nfig s)))
    Repo.procedures /\
  Forall (fun p => forall w, single_pass [] [] (events (run p w)) = true) Repo.scripts.
Proof.
  split.
  - unfold Repo.procedures.
    repeat constructor; intros w s;
      cbv delta [BlockDiagram.create_block_diagram
                 Charts.create_accuracy_chart
                 Charts.create_environmental_tests Charts.create_comparison_chart
                 Enclosure.create_enclosure_2d Enclosure.create_enclosure_3d
                 Enclosure.create_mounting_diagram
                 Flowcharts.create_main_flowchart
                 Flowcharts.create_adaptive_flowchart Flowcharts.create_outlier_flowchart
                 Pcb.create_pcb_layout Schematic.create_schematic];
      apply opens_bind_new_figure; intros; prove_faithful.
  - pose proof scripts_ok_prefix as Hs. unfold Repo.scripts in *.
    repeat match goal with
           | H : Forall _ (_ :: _) |- _ => apply Forall_cons_iff in H as [? ?]
           end.
    repeat constructor; intros w;
      match goal with
      | H : ok_prefix ?p |- single_pass _ _ (events (run ?p _)) = true =>
          destruct (run_prefix p H w) as [tail Et];
          apply (single_pass_app _ _ _ tail); rewrite <- Et;
          destruct w; vm_compute; reflexivity
      end.
Qed.

(** ** C7 *)

Lemma bind_congr_all {A B} (m : M A) (k : A -> M B) w1 w2 :
  (forall s, m w1 s = m w2 s) ->
  (forall a s, k a w1 s = k a w2 s) ->
  forall s, bind m k w1 s = bind m k w2 s.
Proof.
  intros Hm Hk s. unfold bind. rewrite Hm.
  destruct (m w2 s) as [s' [e|a]]; auto.
Qed.

(** Congruence of a composition of procedures, from that of each one. *)
Ltac congr_proc :=
  match goal with
  | |- forall s, bind ?m ?k _ s = bind ?m ?k _ s =>
      apply bind_congr_all; [congr_proc | intros ?; cbv beta; congr_proc]
  | |- forall s, ?p _ s = ?p _ s =>
      intros ?; match goal with H : context [p] |- _ => apply H end
  end.

Lemma procedures_ignore_argv_environ :
  Forall (fun p => forall rng lib argv environ files argv' environ' s,
            p (mkWorld rng lib argv environ files) s
            = p (mkWorld rng lib argv' environ' files) s)
    Repo.procedures.
Proof.
  repeat apply Forall_cons; try apply Forall_nil; intros; eval_run; reflexivity.
Qed.

(** C7: no script reads its command line or environment: every entry point
    behaves identically for any argv and any environment variables. *)
Theorem scripts_ignore_argv_environ :
  Forall (fun p => forall rng lib argv environ files argv' environ',
            run p (mkWorld rng lib argv environ files)
            = run p (mkWorld rng lib argv' environ' files))
    Repo.scripts.
Proof.
  pose proof procedures_ignore_argv_environ as Hp. unfold Repo.procedures in Hp.
  repeat match goal with H : Forall _ (_ :: _) |- _ => inversion_clear H end.
  repeat apply Forall_cons; try apply Forall_nil; intros; unfold run;
    cbv delta [BlockDiagram.main Charts.main Enclosure.main Flowcharts.main
               Pcb.main Schematic.main];
    generalize init_st; congr_proc.
Qed.

End Props.

(** * Properties of the shape and symbol helpers *)

Module Helpers.
Import Plot FlowchartShapes SchematicSymbols.

(** A world whose plotting library never raises. *)
Definition ok_world : world := mkWorld (fun _ => 0) Obs.lib_ok [] [] Obs.no_files.

(** The placement calls of a run, oldest first. *)
Definition draw_calls (evs : list event) : list draw_call :=
  flat_map (fun e => match e with EDraw _ d => [d] | _ => [] end) evs.

(** The placement calls a helper makes, run on its own. *)
Definition drawn (p : M unit) : list draw_call := draw_calls (events (run p ok_world)).

(** [p] issues exactly the placement calls [cs] on the current figure, from
    any state, when no library call raises. *)
Definition emits (p : M unit) (cs : list draw_call) : Prop :=
  forall rng argv environ files s,
    p (mkWorld rng Obs.lib_ok argv environ files) s
    = (mkSt (s_rng s) (s_nfig s) (s_cur s) (rev (map (EDraw (s_cur s)) cs) ++ s_log s),
       inr tt).


Definition mean (l : list Q) : Q := fold_right Qplus 0 l / qnat (length l).

(** Centre of a patch: an ellipse's given centre, the middle of a box given
    by its lower-left corner and size, a polygon's vertex mean. *)
Definition centre (d : draw_call) : option (Q * Q) :=
  match d with
  | DCall name data =>
      if String.eqb name "Ellipse" then
        match data with
        | [cx; cy] :: _ => Some (cx, cy)
        | _ => None
        end
      else if String.eqb name "FancyBboxPatch" then
        match data with
        | [[x0; y0]; [w]; [h]] => Some (x0 + w / 2, y0 + h / 2)
        | _ => None
        end
      else if String.eqb name "Polygon" then
        Some (mean (map (fun p => nth 0 p 0) data), mean (map (fun p => nth 1 p 0) data))
      else None
  | DBlock _ _ => None
  end.

(** One shape, then one text placed at the shape's centre. *)
Definition label_centred (cs : list draw_call) : Prop :=
  exists shape tx ty cx cy,
    cs = [shape; DCall "text" [[tx; ty]]] /\
    centre shape = Some (cx, cy) /\ cx == tx /\ cy == ty.

(** The y coordinates of [n] pins along an edge of height [h] starting at
    [y]: strictly inside, top to bottom, one gap [h / (n + 1)] apart and one
    gap away from both ends. *)
Definition pins_spread (y h : Q) (pys : list Q) : Prop :=
  let gap := h / qnat (length pys + 1) in
  Forall (fun py => y < py /\ py < y + h) pys /\
  Forall2 (fun a b => a - b == gap) (removelast pys) (tl pys) /\
  (pys <> [] -> hd 0 pys == y + h - gap /\ last pys 0 == y + gap).

(** Signed area test: [p] is strictly left of the directed edge [a -> b]. *)
Definition left_of (a b p : Q * Q) : Prop :=
  0 < (fst b - fst a) * (snd p - snd a) - (snd b - snd a) * (fst p - fst a).

Definition in_triangle (a b c p : Q * Q) : Prop :=
  (left_of a b p /\ left_of b c p /\ left_of c a p) \/
  (left_of b a p /\ left_of c b p /\ left_of a c p).

(** The segment drawn by a two-point [ax.plot([x1, x2], [y1, y2])]. *)
Definition segment (d : draw_call) : option ((Q * Q) * (Q * Q)) :=
  match d with
  | DCall name [[a1; a2]; [b1; b2]] =>
      if String.eqb name "plot" then Some ((a1, b1), (a2, b2)) else None
  | _ => None
  end.

Definition segments (cs : list draw_call) : list ((Q * Q) * (Q * Q)) :=
  flat_map (fun d => match segment d with Some sg => [sg] | None => [] end) cs.

Definition pt_eq (p q : Q * Q) : Prop := fst p == fst q /\ snd p == snd q.

(** Equal as sets of two end points. *)
Definition same_segment (sg tg : (Q * Q) * (Q * Q)) : Prop :=
  (pt_eq (fst sg) (fst tg) /\ pt_eq (snd sg) (snd tg)) \/
  (pt_eq (fst sg) (snd tg) /\ pt_eq (snd sg) (fst tg)).

(** Reflection across the horizontal line at height [y0]. *)
Definition mirror (y0 : Q) (sg : (Q * Q) * (Q * Q)) : (Q * Q) * (Q * Q) :=
  ((fst (fst sg), 2 * y0 - snd (fst sg)), (fst (snd sg), 2 * y0 - snd (snd sg))).

Definition mirror_closed (y0 : Q) (sgs : list ((Q * Q) * (Q * Q))) : Prop :=
  Forall (fun sg => Exists (fun tg => same_segment (mirror y0 sg) tg) sgs) sgs.

Lemma emits_draw name data : emits (draw name data) [DCall name data].
Proof. intros rng argv environ files s. reflexivity. Qed.

Lemma emits_ret : emits (ret tt) [].
Proof. intros rng argv environ files [r n c l]. reflexivity. Qed.

Lemma emits_bind m k c1 c2 : emits m c1 -> emits k c2 -> emits (m ;; k) (c1 ++ c2).
Proof.
  intros H1 H2 rng argv environ files s. unfold bind. rewrite H1, H2. simpl.
  rewrite map_app, rev_app_distr, <- app_assoc. reflexivity.
Qed.

Lemma emits_for_each_then {A} (l : list A) body rest f c :
  (forall a, emits (body a) (f a)) -> emits rest c ->
  emits (Charts.for_each_then l body rest) (flat_map f l ++ c).
Proof.
  intros Hb Hr. induction l as [|a l IH]; simpl; [exact Hr|].
  rewrite <- app_assoc. apply emits_bind; auto.
Qed.

Lemma drawn_emits p cs : emits p cs -> drawn p = cs.
Proof.
  intros H. unfold drawn, run, events, ok_world. rewrite H. cbn [fst s_log s_cur init_st].
  rewrite app_nil_r, rev_involutive. unfold draw_calls. clear H.
  induction cs as [|d cs IH]; [reflexivity|]. cbn [map flat_map]. rewrite IH. reflexivity.
Qed.

Lemma flat_map_enumerate {A B} (f : nat -> list B) (l : list A) k :
  flat_map (fun ip => f (fst ip)) (combine (seq k (length l)) l)
  = flat_map f (seq k (length l)).
Proof.
  revert k. induction l as [|a l IH]; intros k; simpl; [reflexivity|].
  rewrite IH. reflexivity.
Qed.

Lemma qnat_succ i : qnat (S i) == qnat i + 1.
Proof. unfold qnat. rewrite Znat.Nat2Z.inj_succ, <- Z.add_1_r, inject_Z_plus. reflexivity. Qed.

Lemma qnat_le i j : (i <= j)%nat -> qnat i <= qnat j.
Proof. intros H. unfold qnat. rewrite <- Zle_Qle. lia. Qed.

Lemma qnat_pos i : 0 < qnat (S i).
Proof. unfold qnat. change 0 with (inject_Z 0). rewrite <- Zlt_Qlt. lia. Qed.

Lemma emits_eq p c c' : emits p c -> c = c' -> emits p c'.
Proof. intros H <-. exact H. Qed.

Lemma flat_map_map {A B C} (f : B -> list C) (g : A -> B) l :
  flat_map f (map g l) = flat_map (fun a => f (g a)) l.
Proof. induction l as [|a l IH]; simpl; [reflexivity|]. rewrite IH. reflexivity. Qed.

Lemma Forall2_consecutive (R : Q -> Q -> Prop) (f : nat -> Q) n k :
  (forall i, R (f i) (f (S i))) ->
  Forall2 R (removelast (map f (seq k n))) (tl (map f (seq k n))).
Proof.
  intros HR. revert k. induction n as [|n IH]; intros k; [constructor|].
  destruct n as [|n]; [constructor|].
  specialize (IH (S k)). simpl in *. constructor; [apply HR | exact IH].
Qed.

Lemma qnat_add1_pos n : 0 < qnat (n + 1).
Proof. replace (n + 1)%nat with (S n) by lia. apply qnat_pos. Qed.

(** The pin rows [draw_ic_package] computes for [n] pins spread over a box
    edge of height [h] from [y]. *)
Lemma pin_rows_spread (y h : Q) (n : nat) :
  0 < h ->
  pins_spread y h (map (fun i => y + h - qnat (i + 1) * (h / qnat (n + 1))) (seq 0 n)).
Proof.
  intros Hh. unfold pins_spread.
  rewrite length_map, length_seq.
  pose proof (qnat_add1_pos n) as Hn.
  set (g := h / qnat (n + 1)).
  assert (Hg : h == qnat (n + 1) * g) by (unfold g; field; lra).
  assert (Hg0 : 0 < g) by (unfold g; apply Qlt_shift_div_l; lra).
  clearbody g.
  split; [|split].
  - apply Forall_forall. intros py Hpy. apply in_map_iff in Hpy as [i [<- Hi]].
    apply in_seq in Hi.
    pose proof (qnat_le (i + 1) n ltac:(lia)) as Hin.
    pose proof (qnat_add1_pos i) as Hi0.
    assert (HN : qnat (n + 1) == qnat n + 1)
      by (replace (n + 1)%nat with (S n) by lia; apply qnat_succ).
    rewrite Hg, HN. split; nra.
  - apply Forall2_consecutive. intros i.
    replace (S i + 1)%nat with (S (i + 1)) by lia. rewrite qnat_succ. ring.
  - intros Hne. destruct n as [|m]; [contradiction|]. split.
    + simpl. change (qnat 1) with 1. ring.
    + rewrite seq_S, map_app. cbn [map]. rewrite last_last. simpl.
      assert (HN : qnat (S m + 1) == qnat (m + 1) + 1)
        by (replace (S m + 1)%nat with (S (m + 1)) by lia; apply qnat_succ).
      rewrite Hg, HN. ring.
Qed.

Ltac drawn_eval :=
  cbv -[Qplus Qminus Qmult Qdiv Qopp Qeq Qlt Qle].

(** Every node helper of generate_flowcharts.py draws one shape and then its
    text, placed at the shape's centre: the terminal ellipse, the process
    box, the decision diamond and the I/O parallelogram. *)
Theorem flowchart_nodes_label_centred (x y : Q) (text : string) (width height size : Q) :
  label_centred (drawn (draw_start_end x y text width height)) /\
  label_centred (drawn (draw_process x y text width height)) /\
  label_centred (drawn (draw_decision x y text size)) /\
  label_centred (drawn (draw_io x y text width height)).
Proof.
  unfold label_centred. drawn_eval.
  repeat split; do 5 eexists; (split; [reflexivity|]); (split; [reflexivity|]);
    split; field.
Qed.

(** The I/O parallelogram of generate_flowcharts.py has horizontal top and
    bottom edges, both of length [width] and [height] apart, with the top edge
    shifted right by [2 * skew = 0.6] whatever the height: a parallelogram
    leaning right. *)
Theorem io_parallelogram (x y : Q) (text : string) (width height : Q) :
  exists a0 b0 a1 b1 a2 b2 a3 b3,
    drawn (draw_io x y text width height)
    = [DCall "Polygon" [[a0; b0]; [a1; b1]; [a2; b2]; [a3; b3]]; DCall "text" [[x; y]]] /\
    b0 == b1 /\ b2 == b3 /\ b0 - b3 == height /\
    a1 - a0 == width /\ a2 - a3 == width /\ a0 - a3 == 0.6 /\ a1 - a2 == 0.6.
Proof.
  drawn_eval. do 8 eexists. split; [reflexivity|].
  repeat split; field.
Qed.


(** A horizontal resistor is one 7-point zigzag starting at [(x, y)] and
    advancing [width / 6] per point to [x + width], its y going
    [y, y+0.1, y-0.1, ..., y-0.1]: it ends 0.1 below its lead, at
    [(x + width, y - 0.1)].  The [height] argument is not used. *)
Theorem resistor_horizontal_zigzag (x y width height : Q) (label value : string) :
  exists xs ys rest,
    drawn (draw_resistor x y width height label value false) = DCall "plot" [xs; ys] :: rest /\
    length xs = 7%nat /\ hd 0 xs == x /\ last xs 0 == x + width /\
    Forall2 (fun a b => b - a == width / 6) (removelast xs) (tl xs) /\
    Forall2 Qeq ys [y; y + 0.1; y - 0.1; y + 0.1; y - 0.1; y + 0.1; y - 0.1] /\
    (forall height', drawn (draw_resistor x y width height' label value false)
                     = drawn (draw_resistor x y width height label value false)).
Proof.
  destruct label; drawn_eval; do 3 eexists; (split; [reflexivity|]);
  (split; [reflexivity|]); (split; [field|]); (split; [field|]);
  (split; [repeat constructor; field|]);
  (split; [repeat constructor; field|]).
  all: intros height'; reflexivity.
Qed.

(** A vertical resistor is one 7-point zigzag starting at [(x, y)] and
    rising [height / 6] per point to [y + height], its x going
    [x, x+0.15, x-0.15, ..., x-0.15]: it ends 0.15 left of its lead, at
    [(x - 0.15, y + height)].  The [width] argument is not used. *)
Theorem resistor_vertical_zigzag (x y width height : Q) (label value : string) :
  exists xs ys rest,
    drawn (draw_resistor x y width height label value true) = DCall "plot" [xs; ys] :: rest /\
    length ys = 7%nat /\ hd 0 ys == y /\ last ys 0 == y + height /\
    Forall2 (fun a b => b - a == height / 6) (removelast ys) (tl ys) /\
    Forall2 Qeq xs [x; x + 0.15; x - 0.15; x + 0.15; x - 0.15; x + 0.15; x - 0.15] /\
    (forall width', drawn (draw_resistor x y width' height label value true)
                    = drawn (draw_resistor x y width height label value true)).
Proof.
  destruct label; drawn_eval; do 3 eexists; (split; [reflexivity|]);
  (split; [reflexivity|]); (split; [field|]); (split; [field|]);
  (split; [repeat constructor; field|]);
  (split; [repeat constructor; field|]).
  all: intros width'; reflexivity.
Qed.


(** The transducer symbol is two circles centred on [(x, y)] (radii 0.35
    and 0.2), three sound-wave arcs and the label at the centre; each arc is
    centred on the symbol's axis and lies entirely to the right of the outer
    circle. *)
Theorem transducer_waves_clear (x y : Q) (label : string) :
  exists arcs,
    drawn (draw_transducer x y label)
    = [DCall "Circle" [[x; y]; [0.35]]; DCall "Circle" [[x; y]; [0.2]]]
      ++ arcs ++ [DCall "text" [[x; y]]] /\
    length arcs = 3%nat /\
    Forall (fun d => exists cx w h,
              d = DCall "Arc" [[cx; y]; [w]; [h]; [0; 60; 300]] /\ x + 0.35 < cx - w / 2)
      arcs.
Proof.
  refine (ex_intro _ [_; _; _] _). drawn_eval. split; [reflexivity|]. split; [reflexivity|].
  repeat (apply Forall_cons;
          [do 3 eexists; split;
           [reflexivity | rewrite Qlt_minus_iff; ring_simplify; reflexivity]|]).
  apply Forall_nil.
Qed.

(** The op-amp's '+' and '-' input marks are anchored strictly inside its
    triangle, '+' above '-'. *)
Theorem opamp_input_marks_inside (x y : Q) (label : string) :
  exists px1 py1 px2 py2 rest,
    drawn (draw_opamp x y label)
    = DCall "Polygon" [[x; y - 0.4]; [x; y + 0.4]; [x + 0.6; y]]
      :: DCall "text" [[px1; py1]] :: DCall "text" [[px2; py2]] :: rest /\
    in_triangle (x, y - 0.4) (x, y + 0.4) (x + 0.6, y) (px1, py1) /\
    in_triangle (x, y - 0.4) (x, y + 0.4) (x + 0.6, y) (px2, py2) /\
    py2 < py1.
Proof.
  destruct label; drawn_eval; do 5 eexists; (split; [reflexivity|]);
  unfold in_triangle, left_of; simpl;
  (split; [right; repeat split; lra|]);
  (split; [right; repeat split; lra|]); lra.
Qed.

(** [draw_ic_package] draws the package box, its label at the box centre,
    then for each left pin a lead ending on the box's left edge with the pin
    name beside it, and likewise on the right.  The pins of each side are
    drawn top to bottom, strictly inside the box's height, evenly spaced
    with a gap of [height / (n + 1)] for [n] pins, the first and last pin
    one gap from the box's top and bottom; a side with no pins gets no
    lead. *)
Theorem ic_package_pins (x y width height : Q) (label : string)
    (pins_left pins_right : list string) :
  0 < height ->
  exists pl pr,
    drawn (draw_ic_package x y width height label pins_left pins_right)
    = [DCall "FancyBboxPatch" [[x; y]; [width]; [height]];
       DCall "text" [[x + width / 2; y + height / 2]]]
      ++ flat_map (fun py => [DCall "plot" [[x - 0.2; x]; [py; py]];
                              DCall "text" [[x - 0.25; py]]]) pl
      ++ flat_map (fun py => [DCall "plot" [[x + width; x + width + 0.2]; [py; py]];
                              DCall "text" [[x + width + 0.25; py]]]) pr /\
    length pl = length pins_left /\ length pr = length pins_right /\
    pins_spread y height pl /\ pins_spread y height pr.
Proof.
  intros Hh.
  set (rows n := map (fun i => y + height - qnat (i + 1) * (height / qnat (n + 1))) (seq 0 n)).
  exists (rows (length pins_left)), (rows (length pins_right)).
  split; [|split; [|split; [|split]]].
  - apply drawn_emits. unfold draw_ic_package.
    eapply emits_eq.
    + eapply emits_bind; [apply emits_draw|].
      eapply emits_bind; [apply emits_draw|].
      cbv beta zeta.
      eapply emits_for_each_then.
      * intros ip. eapply emits_bind; apply emits_draw.
      * eapply emits_for_each_then; [|apply emits_ret].
        intros ip. eapply emits_bind; apply emits_draw.
    + unfold rows. rewrite !flat_map_map, app_nil_r.
      rewrite (flat_map_enumerate
                 (fun i => [DCall "plot" [[x - 0.2; x];
                              [y + height - qnat (i + 1) * (height / qnat (length pins_left + 1));
                               y + height - qnat (i + 1) * (height / qnat (length pins_left + 1))]]]
                           ++ [DCall "text" [[x - 0.25;
                              y + height - qnat (i + 1) * (height / qnat (length pins_left + 1))]]])).
      rewrite (flat_map_enumerate
                 (fun i => [DCall "plot" [[x + width; x + width + 0.2];
                              [y + height - qnat (i + 1) * (height / qnat (length pins_right + 1));
                               y + height - qnat (i + 1) * (height / qnat (length pins_right + 1))]]]
                           ++ [DCall "text" [[x + width + 0.25;
                              y + height - qnat (i + 1) * (height / qnat (length pins_right + 1))]]])).
      reflexivity.
  - unfold rows. rewrite length_map, length_seq. reflexivity.
  - unfold rows. rewrite length_map, length_seq. reflexivity.
  - unfold rows. exact (pin_rows_spread y height _ Hh).
  - unfold rows. exact (pin_rows_spread y height _ Hh).
Qed.

Lemma ic_package_pins_witness :
  0 < 1 /\
  exists pl pr,
    drawn (draw_ic_package 0 0 2 1 "U1"%string ["VCC"; "GND"]%string ["OUT"]%string)
    = [DCall "FancyBboxPatch" [[0; 0]; [2]; [1]];
       DCall "text" [[0 + 2 / 2; 0 + 1 / 2]]]
      ++ flat_map (fun py => [DCall "plot" [[0 - 0.2; 0]; [py; py]];
                              DCall "text" [[0 - 0.25; py]]]) pl
      ++ flat_map (fun py => [DCall "plot" [[0 + 2; 0 + 2 + 0.2]; [py; py]];
                              DCall "text" [[0 + 2 + 0.25; py]]]) pr /\
    length pl = length ["VCC"; "GND"]%string /\ length pr = length ["OUT"]%string /\
    pins_spread 0 1 pl /\ pins_spread 0 1 pr.
Proof.
  assert (H1 : 0 < 1) by reflexivity.
  split; [exact H1|].
  exact (ic_package_pins 0 0 2 1 "U1"%string ["VCC"; "GND"]%string ["OUT"]%string H1).
Defined.

(** The MOSFET symbol is mirror-symmetric about the horizontal line through
    its gate: reflecting any of its drawn segments across [y] gives one of
    its drawn segments. *)
Theorem transistor_mirror_symmetric (x y : Q) (label : string) :
  mirror_closed y (segments (drawn (draw_transistor_nmos x y label))).
Proof.
  destruct label; drawn_eval;
  repeat (apply Forall_cons;
          [ repeat first
              [ apply Exists_cons_hd;
                unfold same_segment, pt_eq, mirror; simpl;
                solve [ left; repeat split; ring | right; repeat split; ring ]
              | apply Exists_cons_tl ]
          |]);
  apply Forall_nil.
Qed.

End Helpers.
